(** * compute_natural_numbers.py: the first n natural numbers and their report

    A shallow embedding of [crates/compute_natural_numbers.py].  The script
    has two functions: [compute_first_n_natural_numbers], which materialises
    [range(1, n + 1)] as a list, and [main], which prints that list, an
    enumerated listing of it and its sum.

    Python integers are unbounded, so they are modelled as [Z].  Python is
    dynamically typed, so the argument of the generator is a [value] and
    the built-ins it calls may raise [TypeError]; every function runs in a
    monad that threads the two output streams and an exception result.
    Memory is taken to be unbounded: the limits of a particular interpreter
    build on the size of a list are outside the model. *)

From Stdlib Require Import ZArith List String Ascii Lia DecimalString Sorted.
Import ListNotations.

Set Warnings "-register-all".

Open Scope Z_scope.
Open Scope string_scope.

(** ** Python values, exceptions and the interpreter monad *)

Module Py.

(** The part of the value universe that the script can see: [None],
    booleans, integers and lists.  *)
Inductive value : Type :=
| VNone : value
| VBool : bool -> value
| VInt : Z -> value
| VList : list value -> value.

Inductive exn : Type :=
| TypeError : exn.

(** The observable world of a run: the text written so far on each of
    the two output streams. *)
Record world : Type := World { stdout : string; stderr : string }.

Definition M (A : Type) : Type := world -> world * (exn + A).

Definition ret {A} (a : A) : M A := fun w => (w, inr a).

Definition raise {A} (e : exn) : M A := fun w => (w, inl e).

Definition bind {A B} (c : M A) (k : A -> M B) : M B :=
  fun w =>
    match c w with
    | (w', inr a) => k a w'
    | (w', inl e) => (w', inl e)
    end.

Notation "x <- c ;; k" := (bind c (fun x => k))
  (at level 61, c at next level, right associativity).
Notation "c ;; k" := (bind c (fun _ => k))
  (at level 61, right associativity).

(** *** Text *)

Definition nl : string := String (ascii_of_nat 10) EmptyString.

(** Decimal rendering of an integer, as [str] and [repr] give it. *)
Definition str_int (z : Z) : string := NilEmpty.string_of_int (Z.to_int z).

Fixpoint join (sep : string) (parts : list string) : string :=
  match parts with
  | [] => EmptyString
  | [p] => p
  | p :: rest => p ++ sep ++ join sep rest
  end.

(** [repr]; on the values of this universe [str] is the same function. *)
Fixpoint py_repr (v : value) : string :=
  match v with
  | VNone => "None"
  | VBool true => "True"
  | VBool false => "False"
  | VInt z => str_int z
  | VList l => "[" ++ join ", " (map py_repr l) ++ "]"
  end.

Definition py_str (v : value) : string := py_repr v.

(** *** Built-ins *)

(** An operand accepted where an integer is required ([bool] is a
    subclass of [int]). *)
Definition as_int (v : value) : option Z :=
  match v with
  | VInt z => Some z
  | VBool b => Some (Z.b2z b)
  | _ => None
  end.

(** The binary [+]. *)
Definition py_add (a b : value) : M value :=
  match a, b with
  | VList l1, VList l2 => ret (VList (l1 ++ l2))
  | _, _ =>
      match as_int a, as_int b with
      | Some x, Some y => ret (VInt (x + y))
      | _, _ => raise TypeError
      end
  end.

(** A [range] object with step 1. *)
Record range_obj : Type := Range { r_start : Z; r_stop : Z }.

Definition py_range (start stop : value) : M range_obj :=
  match as_int start, as_int stop with
  | Some a, Some b => ret (Range a b)
  | _, _ => raise TypeError
  end.

(** The number of items of a range: [max(0, stop - start)]. *)
Definition range_len (r : range_obj) : nat := Z.to_nat (r_stop r - r_start r).

(** The range iterator: [len] successive integers from [start]. *)
Fixpoint count_from (start : Z) (len : nat) : list Z :=
  match len with
  | O => []
  | S k => start :: count_from (start + 1) k
  end.

Definition range_items (r : range_obj) : list Z :=
  count_from (r_start r) (range_len r).

(** [list(r)] for a range [r]. *)
Definition py_list (r : range_obj) : M value :=
  ret (VList (map VInt (range_items r))).

(** [enumerate(xs, start)] over a list, as the list of its pairs. *)
Fixpoint enumerate_from (start : Z) (xs : list value) : list (Z * value) :=
  match xs with
  | [] => []
  | x :: rest => (start, x) :: enumerate_from (start + 1) rest
  end.

Definition py_enumerate (xs : value) (start : Z) : M (list (Z * value)) :=
  match xs with
  | VList l => ret (enumerate_from start l)
  | _ => raise TypeError
  end.

(** A [for] loop over an already materialised iterable. *)
Fixpoint for_each {A} (items : list A) (body : A -> M unit) : M unit :=
  match items with
  | [] => ret tt
  | x :: rest => body x ;; for_each rest body
  end.

(** [sum(xs)]: left fold of [+] from [0]. *)
Fixpoint sum_loop (acc : value) (xs : list value) : M value :=
  match xs with
  | [] => ret acc
  | x :: rest => acc' <- py_add acc x ;; sum_loop acc' rest
  end.

Definition py_sum (xs : value) : M value :=
  match xs with
  | VList l => sum_loop (VInt 0) l
  | _ => raise TypeError
  end.

(** [print(s)] for a string [s]: the text and a newline go to stdout. *)
Definition print_str (s : string) : M unit :=
  fun w => (World (stdout w ++ s ++ nl) (stderr w), inr tt).

(** [print(v)] for a value. *)
Definition py_print (v : value) : M unit := print_str (py_str v).

End Py.

Import Py.

(** ** The script *)

(** [def compute_first_n_natural_numbers(n): return list(range(1, n + 1))] *)
Definition compute_first_n_natural_numbers (n : value) : M value :=
  stop <- py_add n (VInt 1) ;;
  r <- py_range (VInt 1) stop ;;
  py_list r.

(** The body of [main] after its first statement [n = 8], with the bound
    value as a parameter. *)
Definition main_with (n : value) : M unit :=
  natural_numbers <- compute_first_n_natural_numbers n ;;
  print_str ("The first " ++ py_str n ++ " natural numbers are:") ;;
  py_print natural_numbers ;;
  print_str (nl ++ "Formatted output:") ;;
  items <- py_enumerate natural_numbers 1 ;;
  for_each items (fun '(i, num) =>
    print_str (py_str (VInt i) ++ ": " ++ py_str num)) ;;
  total <- py_sum natural_numbers ;;
  print_str (nl ++ "Sum of first " ++ py_str n ++ " natural numbers: "
             ++ py_str total).

Definition main : M unit := main_with (VInt 8).

(** The interpreter running the script: [main()] is called once; an
    uncaught exception is reported on stderr and gives exit status 1,
    a normal return gives exit status 0. *)
Definition exn_name (e : exn) : string :=
  match e with TypeError => "TypeError" end.

Definition run_script (w : world) : world * Z :=
  match main w with
  | (w', inr _) => (w', 0)
  | (w', inl e) => (World (stdout w') (stderr w' ++ exn_name e ++ nl), 1)
  end.

Definition start : world := World EmptyString EmptyString.

(** ** The report as the specification words it

    The Reporter of the specification: given the count and the sequence,
    a header line and the bracketed list, a blank line, the listing
    heading, one indexed line per element, a blank line and the sum line. *)

Definition list_total (l : list Z) : Z := fold_right Z.add 0 l.

Fixpoint listing (index : Z) (l : list Z) : list string :=
  match l with
  | [] => []
  | x :: rest => (str_int index ++ ": " ++ str_int x) :: listing (index + 1) rest
  end.

Fixpoint unlines (ls : list string) : string :=
  match ls with
  | [] => EmptyString
  | l :: rest => l ++ nl ++ unlines rest
  end.

Definition bracketed (l : list Z) : string :=
  "[" ++ join ", " (map str_int l) ++ "]".

Definition sum_line (n total : Z) : string :=
  "Sum of first " ++ str_int n ++ " natural numbers: " ++ str_int total.

Definition report_lines (n : Z) (l : list Z) (total : Z) : list string :=
  [ "The first " ++ str_int n ++ " natural numbers are:";
    bracketed l;
    EmptyString;
    "Formatted output:" ]
  ++ listing 1 l
  ++ [ EmptyString; sum_line n total ].

Definition Reporter (n : Z) (l : list Z) : string :=
  unlines (report_lines n l (list_total l)).

(** The reimplementation the specification allows: the same report with
    the sum taken from the closed formula [N*(N+1)/2] instead of from the
    materialised sequence. *)
Definition main_closed_form (n : Z) : M unit :=
  natural_numbers <- compute_first_n_natural_numbers (VInt n) ;;
  print_str ("The first " ++ py_str (VInt n) ++ " natural numbers are:") ;;
  py_print natural_numbers ;;
  print_str (nl ++ "Formatted output:") ;;
  items <- py_enumerate natural_numbers 1 ;;
  for_each items (fun '(i, num) =>
    print_str (py_str (VInt i) ++ ": " ++ py_str num)) ;;
  print_str (nl ++ "Sum of first " ++ py_str (VInt n) ++ " natural numbers: "
             ++ py_str (VInt (n * (n + 1) / 2))).

(** The sequence [1..n] that the generator returns on an integer. *)
Definition first_n (n : Z) : list Z := count_from 1 (Z.to_nat n).

(** The text the fixed invocation prints. *)
Definition expected_report : string :=
  unlines
    [ "The first 8 natural numbers are:";
      "[1, 2, 3, 4, 5, 6, 7, 8]";
      EmptyString;
      "Formatted output:";
      "1: 1"; "2: 2"; "3: 3"; "4: 4"; "5: 5"; "6: 6"; "7: 7"; "8: 8";
      EmptyString;
      "Sum of first 8 natural numbers: 36" ].

(** ** The range iterator *)

Section CountFrom.

Lemma count_from_length (s : Z) (k : nat) : List.length (count_from s k) = k.
Proof.
  revert s; induction k as [|k IH]; intros s; simpl; [reflexivity|].
  now rewrite IH.
Qed.

Lemma count_from_nth (k : nat) : forall (s : Z) (i : nat),
  (i < k)%nat -> nth_error (count_from s k) i = Some (s + Z.of_nat i).
Proof.
  induction k as [|k IH]; intros s i Hi; [lia|].
  destruct i as [|i]; simpl.
  - f_equal; lia.
  - rewrite IH by lia. f_equal; lia.
Qed.

Lemma count_from_bounds (k : nat) : forall (s : Z),
  Forall (fun x => s <= x < s + Z.of_nat k) (count_from s k).
Proof.
  induction k as [|k IH]; intros s; simpl count_from; constructor.
  - lia.
  - eapply Forall_impl; [|apply IH]. simpl; intros x Hx; lia.
Qed.

Lemma count_from_app (a b : nat) : forall (s : Z),
  count_from s (a + b) = (count_from s a ++ count_from (s + Z.of_nat a) b)%list.
Proof.
  induction a as [|a IH]; intros s.
  - simpl. f_equal; lia.
  - change (S a + b)%nat with (S (a + b)). simpl count_from.
    rewrite IH. simpl. do 3 f_equal. lia.
Qed.

Lemma count_from_seq (k : nat) : forall (i : nat),
  count_from (Z.of_nat i) k = map Z.of_nat (seq i k).
Proof.
  induction k as [|k IH]; intros i; simpl; [reflexivity|].
  f_equal. rewrite <- IH. f_equal; lia.
Qed.

(** Gauss: twice the total of [k] successive integers from [s]. *)
Lemma count_from_total (k : nat) : forall (s : Z),
  2 * list_total (count_from s k) = Z.of_nat k * (2 * s + Z.of_nat k - 1).
Proof.
  induction k as [|k IH]; intros s.
  - reflexivity.
  - simpl count_from. unfold list_total in *. simpl fold_right.
    specialize (IH (s + 1)). nia.
Qed.

End CountFrom.

Lemma first_n_length (n : Z) : Z.of_nat (List.length (first_n n)) = Z.max n 0.
Proof. unfold first_n. rewrite count_from_length. lia. Qed.

Lemma first_n_total (n : Z) : 0 <= n -> list_total (first_n n) = n * (n + 1) / 2.
Proof.
  intros Hn. unfold first_n.
  pose proof (count_from_total (Z.to_nat n) 1) as H.
  rewrite Z2Nat.id in H by assumption.
  apply Z.div_unique_exact; [lia|].
  rewrite H. ring.
Qed.

Lemma first_n_nonpos (n : Z) : n <= 0 -> first_n n = [].
Proof.
  intros Hn. unfold first_n. now replace (Z.to_nat n) with O by lia.
Qed.

(** ** Running the script's functions *)

Lemma str_app_assoc (a b c : string) : (a ++ b) ++ c = a ++ (b ++ c).
Proof. induction a as [|ch a IH]; simpl; [reflexivity|now rewrite IH]. Qed.

Lemma str_app_nil_r (a : string) : a ++ EmptyString = a.
Proof. induction a as [|ch a IH]; simpl; [reflexivity|now rewrite IH]. Qed.

Lemma unlines_app (xs ys : list string) :
  unlines (xs ++ ys) = unlines xs ++ unlines ys.
Proof.
  induction xs as [|x xs IH]; simpl; [reflexivity|].
  now rewrite IH, !str_app_assoc.
Qed.

Lemma compute_on_int (n : Z) (w : world) :
  compute_first_n_natural_numbers (VInt n) w
  = (w, inr (VList (map VInt (first_n n)))).
Proof.
  unfold compute_first_n_natural_numbers, bind, py_add, py_range, py_list, ret.
  simpl. unfold range_items, range_len, first_n. simpl.
  now replace (n + 1 - 1) with n by lia.
Qed.

Lemma repr_ints (l : list Z) : map py_repr (map VInt l) = map str_int l.
Proof. now rewrite map_map. Qed.

Lemma print_str_run (s : string) (w : world) :
  print_str s w = (World (stdout w ++ s ++ nl) (stderr w), inr tt).
Proof. reflexivity. Qed.

Lemma for_each_listing (l : list Z) : forall (i : Z) (w : world),
  for_each (enumerate_from i (map VInt l))
    (fun '(i, num) => print_str (py_str (VInt i) ++ ": " ++ py_str num)) w
  = (World (stdout w ++ unlines (listing i l)) (stderr w), inr tt).
Proof.
  induction l as [|x l IH]; intros i w.
  - simpl. unfold ret. rewrite str_app_nil_r. now destruct w.
  - simpl. unfold bind. rewrite print_str_run, IH. simpl.
    now rewrite !str_app_assoc.
Qed.

Lemma sum_loop_ints (l : list Z) : forall (a : Z) (w : world),
  sum_loop (VInt a) (map VInt l) w = (w, inr (VInt (a + list_total l))).
Proof.
  induction l as [|x l IH]; intros a w; simpl.
  - unfold ret. now rewrite Z.add_0_r.
  - unfold bind. simpl. rewrite IH. do 3 f_equal. lia.
Qed.

(** What the body of [main] does on an integer: it raises nothing, leaves
    stderr alone and appends to stdout the report of the one sequence the
    generator returned. *)
Lemma main_with_report (n : Z) (w : world) :
  main_with (VInt n) w
  = (World (stdout w ++ Reporter n (first_n n)) (stderr w), inr tt).
Proof.
  unfold main_with, bind. rewrite compute_on_int.
  rewrite !print_str_run. unfold py_print. rewrite print_str_run.
  rewrite print_str_run. unfold py_enumerate, ret.
  rewrite for_each_listing. unfold py_sum. rewrite sum_loop_ints.
  rewrite print_str_run. cbn [stdout stderr].
  unfold Reporter, report_lines. rewrite !unlines_app.
  unfold py_str. cbn [py_repr unlines]. rewrite repr_ints.
  fold (bracketed (first_n n)). rewrite Z.add_0_l. 
  unfold sum_line. rewrite !str_app_assoc, str_app_nil_r.
  reflexivity.
Qed.

Lemma main_closed_form_report (n : Z) (w : world) :
  main_closed_form n w
  = (World (stdout w ++ unlines (report_lines n (first_n n) (n * (n + 1) / 2)))
           (stderr w), inr tt).
Proof.
  unfold main_closed_form, bind. rewrite compute_on_int.
  rewrite !print_str_run. unfold py_print. rewrite print_str_run.
  rewrite print_str_run. unfold py_enumerate, ret.
  rewrite for_each_listing, print_str_run. cbn [stdout stderr].
  unfold report_lines. rewrite !unlines_app.
  unfold py_str. cbn [py_repr unlines]. rewrite repr_ints.
  fold (bracketed (first_n n)).
  unfold sum_line. rewrite !str_app_assoc, str_app_nil_r.
  reflexivity.
Qed.

Lemma py_sum_ints (l : list Z) (w : world) :
  py_sum (VList (map VInt l)) w = (w, inr (VInt (list_total l))).
Proof. unfold py_sum. now rewrite sum_loop_ints. Qed.

Lemma report_of_eight : Reporter 8 (first_n 8) = expected_report.
Proof. vm_compute. reflexivity. Qed.

Lemma main_run (w : world) :
  main w = (World (stdout w ++ expected_report) (stderr w), inr tt).
Proof. unfold main. now rewrite main_with_report, report_of_eight. Qed.

Lemma run_script_run (w : world) :
  run_script w = (World (stdout w ++ expected_report) (stderr w), 0).
Proof. unfold run_script. now rewrite main_run. Qed.

(** ** The claims *)

(** C1.  The fixed invocation writes exactly the expected report to
    standard output: the header line and the bracketed list 1..8, a blank
    line, the listing heading, the eight lines "1: 1" to "8: 8", a blank
    line and the sum line with 36.  From the empty streams that text is
    the whole of stdout, and from any streams it is what the run appends. *)
Theorem main_prints_expected_report :
  main start = (World expected_report EmptyString, inr tt)
  /\ stdout (fst (run_script start)) = expected_report
  /\ forall w : world, stdout (fst (main w)) = stdout w ++ expected_report.
Proof.
  split; [|split].
  - vm_compute. reflexivity.
  - vm_compute. reflexivity.
  - intros w. now rewrite main_run.
Qed.

(** C2.  For every integer n >= 0 the generator returns a list of length
    n whose k-th element (counting from 1) is k, that is, the list
    [1, 2, ..., n] in numeric order. *)
Theorem generator_is_one_to_n (n : Z) (w : world) :
  0 <= n ->
  exists l : list value,
    compute_first_n_natural_numbers (VInt n) w = (w, inr (VList l))
    /\ Z.of_nat (List.length l) = n
    /\ (forall k : Z, 1 <= k <= n ->
          nth_error l (Z.to_nat (k - 1)) = Some (VInt k))
    /\ l = map (fun i : nat => VInt (Z.of_nat i)) (seq 1 (Z.to_nat n)).
Proof.
  intros Hn. exists (map VInt (first_n n)).
  split; [apply compute_on_int|]. split; [|split].
  - rewrite length_map, first_n_length. lia.
  - intros k Hk. rewrite nth_error_map. unfold first_n.
    rewrite count_from_nth by lia. cbn [option_map]. do 2 f_equal. lia.
  - unfold first_n. change 1 with (Z.of_nat 1).
    now rewrite count_from_seq, map_map.
Qed.

Lemma generator_is_one_to_n_witness :
  exists l : list value,
    compute_first_n_natural_numbers (VInt 8) start = (start, inr (VList l))
    /\ Z.of_nat (List.length l) = 8
    /\ (forall k : Z, 1 <= k <= 8 ->
          nth_error l (Z.to_nat (k - 1)) = Some (VInt k))
    /\ l = map (fun i : nat => VInt (Z.of_nat i)) (seq 1 (Z.to_nat 8)).
Proof. apply (generator_is_one_to_n 8 start). lia. Defined.

(** C3.  For every integer n >= 0 the sum of the generated sequence is
    n*(n+1)/2 in exact integer arithmetic, and the report that takes the
    sum from that closed formula is the report the script prints. *)
Theorem sum_is_closed_form (n : Z) (w : world) :
  0 <= n ->
  exists l : value,
    compute_first_n_natural_numbers (VInt n) w = (w, inr l)
    /\ py_sum l w = (w, inr (VInt (n * (n + 1) / 2)))
    /\ 2 * (n * (n + 1) / 2) = n * (n + 1)
    /\ main_closed_form n w = main_with (VInt n) w.
Proof.
  intros Hn. exists (VList (map VInt (first_n n))).
  split; [apply compute_on_int|]. split; [|split].
  - now rewrite py_sum_ints, first_n_total.
  - rewrite <- first_n_total by assumption. unfold first_n.
    rewrite count_from_total. rewrite Z2Nat.id by assumption. ring.
  - rewrite main_closed_form_report, main_with_report.
    unfold Reporter. now rewrite first_n_total.
Qed.

Lemma sum_is_closed_form_witness :
  exists l : value,
    compute_first_n_natural_numbers (VInt 8) start = (start, inr l)
    /\ py_sum l start = (start, inr (VInt (8 * (8 + 1) / 2)))
    /\ 2 * (8 * (8 + 1) / 2) = 8 * (8 + 1)
    /\ main_closed_form 8 start = main_with (VInt 8) start.
Proof. apply (sum_is_closed_form 8 start). lia. Defined.

(** C4.  For every integer n <= 0, negative ones included, the generator
    returns the empty list and raises nothing; the sum of that empty
    sequence is 0, so for n = 0 the sequence is empty and its sum is 0. *)
Theorem nonpositive_gives_empty (n : Z) (w : world) :
  n <= 0 ->
  compute_first_n_natural_numbers (VInt n) w = (w, inr (VList []))
  /\ py_sum (VList []) w = (w, inr (VInt 0))
  /\ compute_first_n_natural_numbers (VInt 0) w = (w, inr (VList [])).
Proof.
  intros Hn. rewrite !compute_on_int.
  rewrite (first_n_nonpos n) by assumption.
  repeat split.
Qed.

Lemma nonpositive_gives_empty_witness :
  compute_first_n_natural_numbers (VInt (-5)) start = (start, inr (VList []))
  /\ py_sum (VList []) start = (start, inr (VInt 0))
  /\ compute_first_n_natural_numbers (VInt 0) start = (start, inr (VList [])).
Proof. apply (nonpositive_gives_empty (-5) start). lia. Defined.

(** C5.  The generator is deterministic: on any argument its outcome
    (the list, or the exception) does not depend on the world it is
    called in, and the call leaves that world as it found it, so two
    calls with the same argument agree; consequently every run of the
    program appends one and the same text to stdout. *)
Theorem generator_deterministic :
  (forall (n : value) (w1 w2 : world),
      snd (compute_first_n_natural_numbers n w1)
      = snd (compute_first_n_natural_numbers n w2)
      /\ fst (compute_first_n_natural_numbers n w1) = w1)
  /\ exists out : string, forall w : world,
       run_script w = (World (stdout w ++ out) (stderr w), 0).
Proof.
  split.
  - intros n w1 w2. destruct n as [|b|z|l].
    + split; reflexivity.
    + destruct b; split; reflexivity.
    + rewrite !compute_on_int. split; reflexivity.
    + split; reflexivity.
  - exists expected_report. apply run_script_run.
Qed.

(** C6.  The run has no failure path: from any state of the streams
    [main] returns normally, stderr is left as it was, and the exit
    status is 0; a run from empty streams ends with the report on stdout
    and nothing on stderr. *)
Theorem run_has_no_failure_path (w : world) :
  snd (main w) = inr tt
  /\ stderr (fst (main w)) = stderr w
  /\ snd (run_script w) = 0
  /\ stderr (fst (run_script w)) = stderr w
  /\ run_script start = (World expected_report EmptyString, 0).
Proof.
  rewrite main_run, run_script_run. repeat split.
Qed.

(** C7.  The run terminates: the generator returns a list on every
    integer, and in the fixed invocation the enumeration loop over the
    eight items, the sum, [main] and the whole script each return. *)
Theorem run_terminates :
  (forall (n : Z) (w : world), exists l : list value,
      compute_first_n_natural_numbers (VInt n) w = (w, inr (VList l)))
  /\ (forall w : world, exists (items : list (Z * value)) (w' : world),
        py_enumerate (VList (map VInt (first_n 8))) 1 w = (w, inr items)
        /\ List.length items = 8%nat
        /\ for_each items (fun '(i, num) =>
             print_str (py_str (VInt i) ++ ": " ++ py_str num)) w
           = (w', inr tt))
  /\ (forall w : world, exists total : value,
        py_sum (VList (map VInt (first_n 8))) w = (w, inr total))
  /\ (forall w : world, exists w' : world, main w = (w', inr tt))
  /\ (forall w : world, exists w' : world, run_script w = (w', 0)).
Proof.
  split; [|split; [|split; [|split]]].
  - intros n w. eexists. apply compute_on_int.
  - intros w. do 2 eexists. split; [reflexivity|]. split; [reflexivity|].
    apply for_each_listing.
  - intros w. eexists. apply py_sum_ints.
  - intros w. eexists. apply main_run.
  - intros w. eexists. apply run_script_run.
Qed.

(** C8.  The three views of the report are consistent: the text [main]
    prints is the Reporter's text for the one sequence the generator
    returned, so the list in the header, the enumerated listing and the
    sum line all come from that sequence, and the sum printed, 36, is the
    arithmetic total of its elements. *)
Theorem report_views_consistent (w : world) :
  exists l : list Z,
    compute_first_n_natural_numbers (VInt 8) w = (w, inr (VList (map VInt l)))
    /\ main w = (World (stdout w ++ Reporter 8 l) (stderr w), inr tt)
    /\ py_sum (VList (map VInt l)) w = (w, inr (VInt (list_total l)))
    /\ list_total l = 36.
Proof.
  exists (first_n 8). split; [apply compute_on_int|].
  split; [apply main_with_report|].
  split; [apply py_sum_ints|reflexivity].
Qed.

(** C9.  Prefix monotonicity: for integers 0 <= n <= m, the list for n
    is a prefix of the list for m, and the first n elements of the list
    for m are the list for n. *)
Theorem generator_prefix_monotone (n m : Z) (w : world) :
  0 <= n <= m ->
  exists ln lm : list value,
    compute_first_n_natural_numbers (VInt n) w = (w, inr (VList ln))
    /\ compute_first_n_natural_numbers (VInt m) w = (w, inr (VList lm))
    /\ firstn (Z.to_nat n) lm = ln
    /\ exists rest : list value, lm = (ln ++ rest)%list.
Proof.
  intros Hnm.
  exists (map VInt (first_n n)), (map VInt (first_n m)).
  split; [apply compute_on_int|]. split; [apply compute_on_int|].
  assert (Hsplit : first_n m
                   = (first_n n
                      ++ count_from (1 + n) (Z.to_nat m - Z.to_nat n))%list).
  { unfold first_n.
    replace (Z.to_nat m) with (Z.to_nat n + (Z.to_nat m - Z.to_nat n))%nat
      at 1 by lia.
    rewrite count_from_app. now rewrite Z2Nat.id by lia. }
  rewrite Hsplit, map_app. split.
  - rewrite firstn_app.
    replace (Z.to_nat n - List.length (map VInt (first_n n)))%nat with O
      by (rewrite length_map; unfold first_n; rewrite count_from_length; lia).
    rewrite firstn_all2
      by (rewrite length_map; unfold first_n; rewrite count_from_length; lia).
    simpl. apply app_nil_r.
  - eexists. reflexivity.
Qed.

Lemma generator_prefix_monotone_witness :
  exists ln lm : list value,
    compute_first_n_natural_numbers (VInt 3) start = (start, inr (VList ln))
    /\ compute_first_n_natural_numbers (VInt 5) start = (start, inr (VList lm))
    /\ firstn (Z.to_nat 3) lm = ln
    /\ exists rest : list value, lm = (ln ++ rest)%list.
Proof. apply (generator_prefix_monotone 3 5 start). lia. Defined.

(** C10.  On every integer n, of either sign, the generator returns a
    list of length max(n, 0), and each element x of it satisfies
    1 <= x <= n: the function is total on the integers. *)
Theorem generator_total_on_integers (n : Z) (w : world) :
  exists l : list Z,
    compute_first_n_natural_numbers (VInt n) w = (w, inr (VList (map VInt l)))
    /\ Z.of_nat (List.length l) = Z.max n 0
    /\ Forall (fun x : Z => 1 <= x <= n) l.
Proof.
  exists (first_n n). split; [apply compute_on_int|].
  split; [apply first_n_length|].
  unfold first_n. eapply Forall_impl; [|apply count_from_bounds].
  intros x Hx. cbv beta in Hx |- *. lia.
Qed.

(** ** Further properties of the generator and of the body of [main] *)

Lemma count_from_In (k : nat) : forall (s x : Z),
  In x (count_from s k) <-> s <= x < s + Z.of_nat k.
Proof.
  induction k as [|k IH]; intros s x; simpl count_from.
  - simpl. lia.
  - simpl In. rewrite IH. lia.
Qed.

Lemma count_from_sorted (k : nat) : forall (s : Z),
  StronglySorted Z.lt (count_from s k).
Proof.
  induction k as [|k IH]; intros s; simpl count_from; constructor.
  - apply IH.
  - eapply Forall_impl; [|apply (count_from_bounds k (s + 1))].
    intros x Hx. cbv beta in Hx. lia.
Qed.

Lemma sorted_lt_NoDup (l : list Z) : StronglySorted Z.lt l -> NoDup l.
Proof.
  induction 1 as [|x l Hs IH Hall]; constructor; [|assumption].
  intros Hin. rewrite Forall_forall in Hall. specialize (Hall x Hin). lia.
Qed.

Lemma enumerate_from_ints (l : list Z) : forall (i : Z),
  enumerate_from i (map VInt l)
  = combine (count_from i (List.length l)) (map VInt l).
Proof.
  induction l as [|x l IH]; intros i; simpl; [reflexivity|].
  now rewrite IH.
Qed.

Lemma combine_count_from (k : nat) : forall (s : Z),
  combine (count_from s k) (map VInt (count_from s k))
  = map (fun x : Z => (x, VInt x)) (count_from s k).
Proof.
  induction k as [|k IH]; intros s; simpl; [reflexivity|].
  now rewrite IH.
Qed.

Lemma generator_outcome_raises (n : value) (w : world) :
  as_int n = None ->
  compute_first_n_natural_numbers n w = (w, inl TypeError).
Proof. destruct n as [|b|z|l]; simpl; intros H; try discriminate; reflexivity. Qed.

(** X1.  The generator raises exactly on an argument that is not an
    integer: on [None] or a list it raises [TypeError], on an integer or
    a boolean (which counts as 0 or 1) it returns the list 1..n; in both
    cases it writes nothing. *)
Theorem generator_outcome_by_argument (n : value) (w : world) :
  compute_first_n_natural_numbers n w
  = match as_int n with
    | Some z => (w, inr (VList (map VInt (first_n z))))
    | None => (w, inl TypeError)
    end.
Proof.
  destruct n as [|b|z|l]; try reflexivity.
  - destruct b; reflexivity.
  - apply compute_on_int.
Qed.

(** X2.  On every integer n the returned list holds exactly the integers
    between 1 and n: x occurs in it if and only if 1 <= x <= n. *)
Theorem generator_members (n x : Z) (w : world) :
  exists l : list Z,
    compute_first_n_natural_numbers (VInt n) w = (w, inr (VList (map VInt l)))
    /\ (In x l <-> 1 <= x <= n).
Proof.
  exists (first_n n). split; [apply compute_on_int|].
  unfold first_n. rewrite count_from_In. lia.
Qed.

(** X3.  On every integer n the returned list is strictly increasing,
    hence without duplicates. *)
Theorem generator_strictly_increasing (n : Z) (w : world) :
  exists l : list Z,
    compute_first_n_natural_numbers (VInt n) w = (w, inr (VList (map VInt l)))
    /\ StronglySorted Z.lt l
    /\ NoDup l.
Proof.
  exists (first_n n). split; [apply compute_on_int|].
  assert (Hs : StronglySorted Z.lt (first_n n)) by apply count_from_sorted.
  split; [assumption|now apply sorted_lt_NoDup].
Qed.

(** X4.  One more: for an integer n >= 0 the list for n + 1 is the list
    for n with n + 1 appended. *)
Theorem generator_successor (n : Z) (w : world) :
  0 <= n ->
  exists l : list value,
    compute_first_n_natural_numbers (VInt n) w = (w, inr (VList l))
    /\ compute_first_n_natural_numbers (VInt (n + 1)) w
       = (w, inr (VList (l ++ [VInt (n + 1)]))).
Proof.
  intros Hn. exists (map VInt (first_n n)).
  rewrite !compute_on_int. split; [reflexivity|].
  unfold first_n.
  replace (Z.to_nat (n + 1)) with (Z.to_nat n + 1)%nat by lia.
  rewrite count_from_app, map_app, Z2Nat.id by assumption.
  cbn [count_from map]. now replace (1 + n) with (n + 1) by lia.
Qed.

Lemma generator_successor_witness :
  exists l : list value,
    compute_first_n_natural_numbers (VInt 3) start = (start, inr (VList l))
    /\ compute_first_n_natural_numbers (VInt (3 + 1)) start
       = (start, inr (VList (l ++ [VInt (3 + 1)]))).
Proof. apply (generator_successor 3 start). lia. Defined.

(** X5.  Generating and then summing, as [main] does, gives on every
    integer n the value m*(m+1)/2 for m = max(n, 0): the closed formula
    for n >= 0, and 0 for every negative n. *)
Theorem generate_then_sum (n : Z) (w : world) :
  (l <- compute_first_n_natural_numbers (VInt n) ;; py_sum l) w
  = (w, inr (VInt (Z.max n 0 * (Z.max n 0 + 1) / 2))).
Proof.
  unfold bind. rewrite compute_on_int, py_sum_ints.
  do 3 f_equal. destruct (Z.le_gt_cases 0 n) as [Hn|Hn].
  - rewrite Z.max_l by assumption. now apply first_n_total.
  - rewrite Z.max_r by lia. rewrite first_n_nonpos by lia. reflexivity.
Qed.

(** X6.  Generating and then enumerating from 1, as the loop of [main]
    does, pairs every element with itself: on every integer n each item
    is (k, k), so each line of the listing shows an index equal to its
    value. *)
Theorem generate_then_enumerate (n : Z) (w : world) :
  (l <- compute_first_n_natural_numbers (VInt n) ;; py_enumerate l 1) w
  = (w, inr (map (fun k : Z => (k, VInt k)) (first_n n))).
Proof.
  unfold bind. rewrite compute_on_int. unfold py_enumerate, ret.
  rewrite enumerate_from_ints. unfold first_n at 1.
  rewrite count_from_length. fold (first_n n). unfold first_n.
  now rewrite combine_count_from.
Qed.

(** X7.  With any integer bound to n, the body of [main] raises nothing,
    leaves stderr alone and appends to stdout the report of 1..n: the
    header with n, the bracketed list, the listing and the sum line. *)
Theorem main_body_reports_any_integer (n : Z) (w : world) :
  main_with (VInt n) w
  = (World (stdout w ++ Reporter n (first_n n)) (stderr w), inr tt)
  /\ List.length (report_lines n (first_n n) (list_total (first_n n)))
     = (Z.to_nat n + 6)%nat.
Proof.
  split; [apply main_with_report|].
  unfold report_lines. rewrite !length_app. simpl List.length.
  assert (Hl : forall (l : list Z) (i : Z),
             List.length (listing i l) = List.length l).
  { induction l as [|x l IH]; intros i; simpl; [reflexivity|now rewrite IH]. }
  rewrite Hl. unfold first_n. rewrite count_from_length. lia.
Qed.

(** X8.  With an integer n <= 0 bound to n, the body of [main] prints the
    degenerate report: the header, the empty list, the listing heading
    with no lines under it, and a sum of 0. *)
Theorem main_body_on_nonpositive (n : Z) (w : world) :
  n <= 0 ->
  main_with (VInt n) w
  = (World (stdout w
            ++ unlines [ "The first " ++ str_int n ++ " natural numbers are:";
                         "[]";
                         EmptyString;
                         "Formatted output:";
                         EmptyString;
                         "Sum of first " ++ str_int n
                           ++ " natural numbers: 0" ])
           (stderr w), inr tt).
Proof.
  intros Hn. rewrite main_with_report.
  unfold Reporter. rewrite (first_n_nonpos n) by assumption.
  reflexivity.
Qed.

Lemma main_body_on_nonpositive_witness :
  main_with (VInt 0) start
  = (World (stdout start
            ++ unlines [ "The first " ++ str_int 0 ++ " natural numbers are:";
                         "[]";
                         EmptyString;
                         "Formatted output:";
                         EmptyString;
                         "Sum of first " ++ str_int 0
                           ++ " natural numbers: 0" ])
           (stderr start), inr tt).
Proof. apply (main_body_on_nonpositive 0 start). lia. Defined.

(** X9.  With a value that is not an integer bound to n, the body of
    [main] stops at the generator call: [TypeError] is raised before
    anything is printed, so both streams are as they were. *)
Theorem main_body_raises_before_printing (n : value) (w : world) :
  as_int n = None ->
  main_with n w = (w, inl TypeError).
Proof.
  intros Hn. unfold main_with, bind.
  rewrite generator_outcome_raises by assumption. reflexivity.
Qed.

Lemma main_body_raises_before_printing_witness :
  main_with VNone start = (start, inl TypeError).
Proof. apply (main_body_raises_before_printing VNone start). reflexivity. Defined.
